(** * The Galaxy notification client of BioBlend

    A shallow embedding of [bioblend/galaxy/notifications/__init__.py]
    (class [NotificationClient]) and the properties of the requests it
    builds.

    The client is a thin request builder on top of the generic [Client]
    base class.  The base class ([_get], [_post], [_put], [_make_url]) and
    the remote Galaxy service are collaborators of the module: they are
    taken as parameters of the development, and every call of [_get],
    [_post] or [_put] is recorded in a log of issued requests. *)

From Stdlib Require Import String Ascii List ZArith Bool Lia.
Import ListNotations.

Local Open Scope list_scope.
Local Open Scope string_scope.

(** ** Python values

    Payloads and query parameters are plain Python data.  A [dict] keeps
    its keys in insertion order, so it is an association list. *)

#[local] Set Warnings "-register-all".

Inductive value : Type :=
| PyNone
| PyBool (b : bool)
| PyInt (z : Z)
| PyStr (s : string)
| PyList (l : list value)
| PyDict (d : list (string * value)).

Definition dict : Type := list (string * value).

(** [d[k] = v]: overwrite in place when the key is present, append
    otherwise. *)
Fixpoint dict_set (d : dict) (k : string) (v : value) : dict :=
  match d with
  | [] => [(k, v)]
  | (k', v') :: rest =>
      if String.eqb k' k then (k', v) :: rest
      else (k', v') :: dict_set rest k v
  end.

(** [d.get(k)] *)
Fixpoint dict_get (d : dict) (k : string) : option value :=
  match d with
  | [] => None
  | (k', v) :: rest => if String.eqb k' k then Some v else dict_get rest k
  end.

(** Lookup of a key in a value that is expected to be a [dict]. *)
Definition field (k : string) (v : value) : option value :=
  match v with
  | PyDict d => dict_get d k
  | _ => None
  end.

(** Lookup along a path of keys, [v[k1][k2]...]. *)
Fixpoint path (ks : list string) (v : value) : option value :=
  match ks with
  | [] => Some v
  | k :: ks' =>
      match field k v with
      | Some v' => path ks' v'
      | None => None
      end
  end.

Definition keys (d : dict) : list string := map fst d.

(** ** Truth value testing ([if x:], [x or y]) *)

Class Truthy (A : Type) : Type := truth : A -> bool.

#[export] Instance list_Truthy {A : Type} : Truthy (list A) :=
  fun l => match l with [] => false | _ :: _ => true end.

(** [Optional[A]]: [None] is false, anything else tests as itself. *)
#[export] Instance option_Truthy {A : Type} `{Truthy A} : Truthy (option A) :=
  fun o => match o with None => false | Some a => truth a end.

(** Branching on the truth of [x : Optional[A]]: the true branch sees the
    value that [x] holds. *)
Definition if_truthy {A B : Type} `{Truthy A}
    (x : option A) (yes : A -> B) (no : B) : B :=
  match x with
  | Some a => if truth a then yes a else no
  | None => no
  end.

(** [x or d] for [x : Optional[A]] and a default [d : A]. *)
Definition or_else {A : Type} `{Truthy A} (x : option A) (d : A) : A :=
  if_truthy x (fun a => a) d.

(** [if x: d[k] = f(x)] for [x : Optional[A]]. *)
Definition set_if {A : Type} `{Truthy A}
    (x : option A) (k : string) (f : A -> value) (d : dict) : dict :=
  if_truthy x (fun a => dict_set d k (f a)) d.

(** ** Strings and comparisons *)

(** [s[:n]] *)
Definition slice_to (n : nat) (s : string) : string := substring 0 n s.

(** [a != b] on [str] *)
Definition str_neq (a b : string) : bool := negb (String.eqb a b).

Fixpoint list_eqb {A : Type} (eqb : A -> A -> bool) (l1 l2 : list A) : bool :=
  match l1, l2 with
  | [], [] => true
  | x :: l1', y :: l2' => eqb x y && list_eqb eqb l1' l2'
  | _, _ => false
  end.

(** [==] on [Optional[List[str]]]: [None == None], [None != [...]]. *)
Definition ids_eqb (a b : option (list string)) : bool :=
  match a, b with
  | None, None => true
  | Some l1, Some l2 => list_eqb String.eqb l1 l2
  | _, _ => false
  end.

(** ** Arguments *)

(** [Literal["info", "urgent", "warning"]] *)
Inductive variant : Type := info | urgent | warning.

Definition variant_str (v : variant) : string :=
  match v with
  | info => "info"
  | urgent => "urgent"
  | warning => "warning"
  end.

(** A keyword argument that the caller may leave out. *)
Inductive kwarg (A : Type) : Type :=
| Omitted
| Passed (a : A).
Arguments Omitted {A}.
Arguments Passed {A} a.

Definition kw_default {A : Type} (d : A) (k : kwarg A) : A :=
  match k with
  | Omitted => d
  | Passed a => a
  end.

Definition opt_int (o : option Z) : value :=
  match o with
  | Some z => PyInt z
  | None => PyNone
  end.

Definition str_list (l : list string) : value := PyList (map PyStr l).

(** ** Requests *)

Inductive http_method : Type := GET | POST | PUT.

(** What the client hands to the base class: [url] and [params] are [None]
    when the client does not pass them (the base class then uses the
    module's own URL). *)
Record request : Type := mkRequest {
  req_method : http_method;
  req_url : option string;
  req_params : option value;
  req_payload : option value
}.

(** ** The collaborators of the client *)

Class Environment : Type := {
  (** [datetime.datetime] and its [str()], from Python's library *)
  datetime : Type;
  datetime_str : datetime -> string;
  (** the remote service: its state, the errors the transport raises and
      how a request is answered *)
  service : Type;
  transport_error : Type;
  serve : request -> service -> (value + transport_error) * service;
  (** [Client._make_url(module_id)] *)
  _make_url : option string -> string
}.

(** A [datetime] object is always true. *)
#[export] Instance datetime_Truthy `{Environment} : Truthy datetime :=
  fun _ => true.

Section NotificationClient.

Context `{Environment}.

(** *** Effects: exceptions and the log of issued requests *)

Inductive exn : Type :=
| ValueError (msg : string)
| TransportError (e : transport_error).

Inductive outcome (A : Type) : Type :=
| Return (a : A)
| Raise (e : exn).
Arguments Return {A} a.
Arguments Raise {A} e.

Record world : Type := mkWorld {
  sent : list request;
  remote : service
}.

Definition M (A : Type) : Type := world -> outcome A * world.

Definition ret {A : Type} (a : A) : M A := fun w => (Return a, w).

Definition raise {A : Type} (e : exn) : M A := fun w => (Raise e, w).

Definition bind {A B : Type} (m : M A) (k : A -> M B) : M B :=
  fun w =>
    match m w with
    | (Return a, w') => k a w'
    | (Raise e, w') => (Raise e, w')
    end.

Notation "x <- c1 ;; c2" := (bind c1 (fun x => c2))
  (at level 61, c1 at next level, right associativity).
Notation "c1 ;; c2" := (bind c1 (fun _ => c2))
  (at level 61, right associativity).

(** [if c: raise e] *)
Definition raise_if (c : bool) (e : exn) : M unit :=
  if c then raise e else ret tt.

Definition decode (reply : value + transport_error) : outcome value :=
  match reply with
  | inl v => Return v
  | inr e => Raise (TransportError e)
  end.

(** One round trip: the request is logged, the service answers, the
    decoded body is returned or the transport's error is raised. *)
Definition transport (r : request) : M value :=
  fun w =>
    let reply := serve r (remote w) in
    (decode (fst reply),
     {| sent := (sent w ++ [r])%list; remote := snd reply |}).

Definition _get (url : option string) (params : option value) : M value :=
  transport (mkRequest GET url params None).

Definition _post (payload : value) (url : option string) : M value :=
  transport (mkRequest POST url None (Some payload)).

Definition _put (url : option string) (payload : value) : M value :=
  transport (mkRequest PUT url None (Some payload)).

(** *** The methods of [NotificationClient] *)

Definition get_notification_status (since : datetime) : M value :=
  let url := _make_url None ++ "/status?since=" ++ datetime_str since in
  _get (Some url) None.

Definition get_notification_preferences : M value :=
  let url := _make_url (Some "preferences") in
  _get (Some url) None.

Definition update_notification_preferences
    (message_notifications push_notifications_message
     new_item_notifications push_notifications_new_items : bool) : M value :=
  let url := _make_url (Some "preferences") in
  let payload :=
    PyDict
      [("preferences",
        PyDict
          [("message",
            PyDict [("enabled", PyBool message_notifications);
                    ("channels",
                     PyDict [("push", PyBool push_notifications_message)])]);
           ("new_shared_item",
            PyDict [("enabled", PyBool new_item_notifications);
                    ("channels",
                     PyDict [("push", PyBool push_notifications_new_items)])])])]
  in
  _put (Some url) payload.

Definition get_user_notifications
    (limit offset : kwarg (option Z)) : M value :=
  let limit := kw_default (Some 20%Z) limit in
  let offset := kw_default None offset in
  let params := PyDict [("limit", opt_int limit); ("offset", opt_int offset)] in
  _get None (Some params).

Definition show_notification (notification_id : string) : M value :=
  let url := _make_url None ++ "/" ++ notification_id in
  _get (Some url) None.

(** The keyword arguments of [send_notification] and
    [broadcast_notification] all default to [None], so an omitted
    argument is [None]. *)
Definition send_notification
    (source : string) (variant_ : variant) (subject message : string)
    (publication_time expiration_time : option datetime)
    (user_ids group_ids role_ids : option (list string)) : M value :=
  (* user_ids == group_ids == role_ids == [] *)
  raise_if (ids_eqb user_ids group_ids
            && ids_eqb group_ids role_ids
            && ids_eqb role_ids (Some []))
           (ValueError "The message has no recipients.") ;;
  let recipients :=
    PyDict [("user_ids", str_list (or_else user_ids []));
            ("group_ids", str_list (or_else group_ids []));
            ("role_ids", str_list (or_else role_ids []))] in
  let content :=
    [("source", PyStr source);
     ("variant", PyStr (variant_str variant_));
     ("category", PyStr "message");
     ("content",
      PyDict [("category", PyStr "message");
              ("subject", PyStr subject);
              ("message", PyStr message)])] in
  let content :=
    set_if expiration_time "expiration_time"
           (fun t => PyStr (datetime_str t)) content in
  let content :=
    set_if publication_time "publication_time"
           (fun t => PyStr (datetime_str t)) content in
  let notification :=
    PyDict [("recipients", recipients); ("notification", PyDict content)] in
  _post notification None.

(** [for k, v in action_links.items(): ...], with [links] the list
    built so far. *)
Fixpoint format_links (items : list (string * string)) (links : list value)
    : M (list value) :=
  match items with
  | [] => ret links
  | (k, v) :: rest =>
      raise_if (str_neq (slice_to 7 v) "http://"
                && str_neq (slice_to 8 v) "https://")
               (ValueError ("Link " ++ v ++ " is not a valid URL.")) ;;
      format_links rest
        (links ++ [PyDict [("action_name", PyStr k); ("link", PyStr v)]])%list
  end.

Definition broadcast_notification
    (source : string) (variant_ : variant) (subject message : string)
    (action_links : option (list (string * string)))
    (publication_time expiration_time : option datetime) : M value :=
  let content :=
    [("category", PyStr "broadcast");
     ("subject", PyStr subject);
     ("message", PyStr message)] in
  content <-
    if_truthy action_links
      (fun action_links =>
         links <- format_links action_links [] ;;
         ret (dict_set content "action_links" (PyList links)))
      (ret content) ;;
  (* the store [broadcast["content"] = content] into the empty dict is
     overwritten at once by the literal below *)
  let broadcast :=
    [("source", PyStr source);
     ("variant", PyStr (variant_str variant_));
     ("category", PyStr "broadcast");
     ("content", PyDict content)] in
  let broadcast :=
    set_if expiration_time "expiration_time"
           (fun t => PyStr (datetime_str t)) broadcast in
  let broadcast :=
    set_if publication_time "publication_time"
           (fun t => PyStr (datetime_str t)) broadcast in
  let url := _make_url (Some "broadcast") in
  _post (PyDict broadcast) (Some url).

End NotificationClient.

Arguments Return {H A} a.
Arguments Raise {H A} e.

(** ** What the claims speak about *)

(** [s.startswith(p)] *)
Definition starts_with (p s : string) : bool := prefix p s.

(** A link the broadcast accepts. *)
Definition valid_link (v : string) : bool :=
  starts_with "http://" v || starts_with "https://" v.

(** The entry of the payload's [action_links] for one item of the input
    mapping. *)
Definition link_entry (kv : string * string) : value :=
  PyDict [("action_name", PyStr (fst kv)); ("link", PyStr (snd kv))].

(** A recipient list as the payload shows it: an omitted list is empty. *)
Definition supplied (ids : option (list string)) : list string :=
  match ids with
  | Some l => l
  | None => []
  end.

Definition recipients_of (user_ids group_ids role_ids : option (list string))
    : value :=
  PyDict [("user_ids", str_list (supplied user_ids));
          ("group_ids", str_list (supplied group_ids));
          ("role_ids", str_list (supplied role_ids))].

Definition nonempty (ids : option (list string)) : Prop :=
  exists x l, ids = Some (x :: l).

(** A time stamp field: there when the argument was supplied, as the
    string form of the time stamp. *)
Definition timestamp_field `{Environment} (k : string) (t : option datetime)
    : dict :=
  match t with
  | Some t => [(k, PyStr (datetime_str t))]
  | None => []
  end.

(** The settings of one notification category. *)
Definition category_settings (enabled push : bool) : value :=
  PyDict [("enabled", PyBool enabled);
          ("channels", PyDict [("push", PyBool push)])].

(** The body of a notification or broadcast: four fixed fields, then the
    time stamps that were supplied. *)
Definition notification_body `{Environment}
    (source : string) (variant_ : variant) (category : string)
    (content : value) (expiration_time publication_time : option datetime)
    : value :=
  PyDict ([("source", PyStr source);
           ("variant", PyStr (variant_str variant_));
           ("category", PyStr category);
           ("content", content)]
          ++ timestamp_field "expiration_time" expiration_time
          ++ timestamp_field "publication_time" publication_time)%list.

Definition message_content (subject message : string) : value :=
  PyDict [("category", PyStr "message");
          ("subject", PyStr subject);
          ("message", PyStr message)].

(** The [action_links] field of a broadcast: there when the mapping has
    at least one item. *)
Definition action_links_field (action_links : option (list (string * string)))
    : dict :=
  match action_links with
  | Some (item :: items) =>
      [("action_links", PyList (map link_entry (item :: items)))]
  | _ => []
  end.

Definition broadcast_content (subject message : string)
    (action_links : option (list (string * string))) : value :=
  PyDict ([("category", PyStr "broadcast");
           ("subject", PyStr subject);
           ("message", PyStr message)]
          ++ action_links_field action_links)%list.

(** Every link of the mapping, if one was passed, is accepted. *)
Definition links_pass (action_links : option (list (string * string)))
    : Prop :=
  match action_links with
  | Some items => Forall (fun kv => valid_link (snd kv) = true) items
  | None => True
  end.

(** The three recipient lists were all passed, and all empty. *)
Definition all_explicitly_empty
    (user_ids group_ids role_ids : option (list string)) : Prop :=
  user_ids = Some [] /\ group_ids = Some [] /\ role_ids = Some [].

(** The call [m], started in [w], issues the request [r] and nothing else,
    and returns what the transport made of the service's answer. *)
Definition issues_only `{Environment} (m : M value) (w : world) (r : request)
    : Prop :=
  sent (snd (m w)) = (sent w ++ [r])%list /\
  remote (snd (m w)) = snd (serve r (remote w)) /\
  fst (m w) = decode (fst (serve r (remote w))).

(** The call [m], started in [w], raises [e] and leaves the log of
    requests and the service as they were. *)
Definition rejects `{Environment} {A : Type} (m : M A) (w : world) (e : exn)
    : Prop :=
  m w = (Raise e, w).

(** ** A service to run the client against *)

Module Demo.

(** A [datetime] without time zone; [str()] is the ISO format with a
    space between date and time. *)
Record naive_datetime : Type := mkDatetime {
  year : nat; month : nat; day : nat;
  hour : nat; minute : nat; second : nat;
  microsecond : nat
}.

Definition digit (n : nat) : ascii := ascii_of_nat (48 + n).

Fixpoint zero_padded (width n : nat) : string :=
  match width with
  | 0 => ""
  | S width' => zero_padded width' (n / 10) ++ String (digit (n mod 10)) ""
  end.

Definition naive_str (t : naive_datetime) : string :=
  zero_padded 4 (year t) ++ "-" ++ zero_padded 2 (month t) ++ "-"
  ++ zero_padded 2 (day t) ++ " " ++ zero_padded 2 (hour t) ++ ":"
  ++ zero_padded 2 (minute t) ++ ":" ++ zero_padded 2 (second t)
  ++ (if Nat.eqb (microsecond t) 0 then ""
      else "." ++ zero_padded 6 (microsecond t)).

(** The service counts the requests it has answered and answers each
    with its number; a [GET] of a URL ending in a slash is not found. *)
Definition answer (r : request) (served : nat)
    : (value + nat) * nat :=
  match req_method r, req_url r with
  | GET, Some "api/notifications/" => (inr 404, S served)
  | _, _ => (inl (PyDict [("request", PyInt (Z.of_nat served))]), S served)
  end.

Definition make_url (module_id : option string) : string :=
  match module_id with
  | Some id => "api/notifications/" ++ id
  | None => "api/notifications"
  end.

Definition env : Environment := {|
  datetime := naive_datetime;
  datetime_str := naive_str;
  service := nat;
  transport_error := nat;
  serve := answer;
  _make_url := make_url
|}.

Definition start : @world env := @mkWorld env [] 0.

Definition tomorrow : naive_datetime := mkDatetime 2023 7 14 9 30 0 0.

End Demo.

(** ** The calls of the client, as data

    One constructor per method of [NotificationClient], holding the
    arguments of a call; [perform] makes the call. *)

Inductive call `{Environment} : Type :=
| GetNotificationStatus (since : datetime)
| GetNotificationPreferences
| UpdateNotificationPreferences
    (message_notifications push_notifications_message
     new_item_notifications push_notifications_new_items : bool)
| GetUserNotifications (limit offset : kwarg (option Z))
| ShowNotification (notification_id : string)
| SendNotification
    (source : string) (variant_ : variant) (subject message : string)
    (publication_time expiration_time : option datetime)
    (user_ids group_ids role_ids : option (list string))
| BroadcastNotification
    (source : string) (variant_ : variant) (subject message : string)
    (action_links : option (list (string * string)))
    (publication_time expiration_time : option datetime).

Definition perform `{Environment} (c : call) : M value :=
  match c with
  | GetNotificationStatus since => get_notification_status since
  | GetNotificationPreferences => get_notification_preferences
  | UpdateNotificationPreferences m pm n pn =>
      update_notification_preferences m pm n pn
  | GetUserNotifications limit offset => get_user_notifications limit offset
  | ShowNotification notification_id => show_notification notification_id
  | SendNotification source variant_ subject message pub exp u g r =>
      send_notification source variant_ subject message pub exp u g r
  | BroadcastNotification source variant_ subject message links pub exp =>
      broadcast_notification source variant_ subject message links pub exp
  end.

(** The methods that read: the four [get_...]/[show_...] methods. *)
Definition reads `{Environment} (c : call) : bool :=
  match c with
  | GetNotificationStatus _ | GetNotificationPreferences
  | GetUserNotifications _ _ | ShowNotification _ => true
  | _ => false
  end.

(** Calls made one after the other, as the statements of a script: the
    first exception ends the script. *)
Fixpoint script `{Environment} (cs : list call) : M (list value) :=
  match cs with
  | [] => ret []
  | c :: cs' =>
      bind (perform c) (fun v =>
      bind (script cs') (fun vs =>
      ret (v :: vs)))
  end.

(** A link made of one of the two schemes and a rest. *)
Definition has_web_scheme (v : string) : Prop :=
  exists rest, v = "http://" ++ rest \/ v = "https://" ++ rest.

(** ** The helpers of the test suite
    ([bioblend/_tests/TestGalaxyNotifications.py]) *)

(** [bool(s)] for [s : str] *)
#[export] Instance string_Truthy : Truthy string :=
  fun s => negb (String.eqb s "").

Section TestHelpers.

Context `{Environment}.

(** What [datetime.utcnow()] returns at the call, and
    [t + timedelta(days=n)]. *)
Variable utcnow : datetime.
Variable plus_days : datetime -> Z -> datetime.

Definition _send_test_broadcast_notification
    (subject message : option string) : M value :=
  let broadcast :=
    broadcast_notification
      "notifications_test" info
      (or_else subject "Testing Subject")
      (or_else message "Testing Message")
      (Some [("link_1", "https://link1.de"); ("link_2", "https://link2.de")])
      None (Some (plus_days utcnow 1)) in
  broadcast.

Definition _send_test_notification_to
    (user_ids : list string) (subject message : option string) : M value :=
  let notification :=
    send_notification
      "notifications_test" info
      (or_else subject "Testing Subject")
      (or_else message "Testing Message")
      None (Some (plus_days utcnow 1))
      (Some user_ids) None None in
  notification.

End TestHelpers.

(** ** Properties of the client *)

Section Properties.

Context `{Environment}.

(** *** The transport *)

Lemma transport_issues_only (r : request) (w : world) :
  issues_only (transport r) w r.
Proof. unfold issues_only, transport; cbn. auto. Qed.

Lemma issues_only_not_ValueError (m : M value) w r msg :
  issues_only m w r -> fst (m w) <> Raise (ValueError msg).
Proof.
  intros (_ & _ & Hres). rewrite Hres.
  destruct (fst (serve r (remote w))); cbn; discriminate.
Qed.

Lemma bind_raise_if_false {A : Type} (e : exn) (k : unit -> M A) w :
  bind (raise_if false e) k w = k tt w.
Proof. reflexivity. Qed.

Lemma bind_raise_if_true {A : Type} (e : exn) (k : unit -> M A) w :
  bind (raise_if true e) k w = (Raise e, w).
Proof. reflexivity. Qed.

(** *** The recipient check of [send_notification] *)

Lemma list_eqb_nil_r (l : list string) :
  list_eqb String.eqb l [] = true <-> l = [].
Proof. destruct l; cbn; split; congruence. Qed.

Lemma ids_eqb_empty (ids : option (list string)) :
  ids_eqb ids (Some []) = true <-> ids = Some [].
Proof.
  destruct ids as [l|]; cbn.
  - rewrite list_eqb_nil_r. split; congruence.
  - split; discriminate.
Qed.

(** The chained comparison holds exactly when the three arguments are
    the empty list. *)
Lemma no_recipients_check (user_ids group_ids role_ids : option (list string)) :
  ids_eqb user_ids group_ids && ids_eqb group_ids role_ids
    && ids_eqb role_ids (Some []) = true
  <-> all_explicitly_empty user_ids group_ids role_ids.
Proof.
  unfold all_explicitly_empty. split.
  - intros Hc. apply andb_prop in Hc as [Hc Hr].
    apply andb_prop in Hc as [Hug Hgr].
    apply ids_eqb_empty in Hr. subst role_ids.
    apply ids_eqb_empty in Hgr. subst group_ids.
    apply ids_eqb_empty in Hug. auto.
  - intros (-> & -> & ->). reflexivity.
Qed.

Lemma or_else_supplied (ids : option (list string)) :
  or_else ids [] = supplied ids.
Proof. destruct ids as [[|x l]|]; reflexivity. Qed.

(** *** The link check of [broadcast_notification] *)

Lemma slice_is_prefix (p v : string) :
  String.eqb (slice_to (String.length p) v) p = starts_with p v.
Proof.
  unfold slice_to, starts_with.
  destruct (String.eqb_spec (substring 0 (String.length p) v) p) as [Heq | Hne].
  - symmetry. now apply prefix_correct.
  - destruct (prefix p v) eqn:Hp; [| reflexivity].
    apply prefix_correct in Hp. contradiction.
Qed.

Lemma link_check (v : string) :
  str_neq (slice_to 7 v) "http://" && str_neq (slice_to 8 v) "https://"
  = negb (valid_link v).
Proof.
  pose proof (slice_is_prefix "http://" v) as Hhttp.
  pose proof (slice_is_prefix "https://" v) as Hhttps.
  cbn [String.length] in Hhttp, Hhttps.
  unfold str_neq, valid_link.
  now rewrite Hhttp, Hhttps, negb_orb.
Qed.

(** The loop stops at the first link that is not valid, and otherwise
    appends the entries in the order of the items. *)
Lemma format_links_run (items : list (string * string)) :
  forall (links : list value) (w : world),
    format_links items links w =
    match find (fun kv => negb (valid_link (snd kv))) items with
    | Some kv =>
        (Raise (ValueError ("Link " ++ snd kv ++ " is not a valid URL.")), w)
    | None => (Return (links ++ map link_entry items)%list, w)
    end.
Proof.
  induction items as [| [k v] rest IH]; intros links w.
  - cbn. now rewrite app_nil_r.
  - cbn [format_links find snd]. rewrite link_check.
    destruct (valid_link v); cbn [negb].
    + rewrite bind_raise_if_false, IH.
      destruct (find _ rest); [reflexivity |].
      cbn [map]. now rewrite <- app_assoc.
    + now rewrite bind_raise_if_true.
Qed.

Lemma find_none_iff_all_valid (items : list (string * string)) :
  Forall (fun kv => valid_link (snd kv) = true) items ->
  find (fun kv => negb (valid_link (snd kv))) items = None.
Proof.
  induction 1 as [| kv rest Hv _ IH]; cbn; [reflexivity |].
  now rewrite Hv.
Qed.

Lemma find_some_of_invalid (items : list (string * string)) :
  Exists (fun kv => valid_link (snd kv) = false) items ->
  exists kv, find (fun kv => negb (valid_link (snd kv))) items = Some kv.
Proof.
  induction 1 as [kv rest Hv | kv rest _ IH]; cbn.
  - rewrite Hv. cbn. eauto.
  - destruct (valid_link (snd kv)); cbn; eauto.
Qed.

(** *** The two requests that carry a notification *)

Lemma send_notification_posts
    source variant_ subject message publication_time expiration_time
    user_ids group_ids role_ids w :
  ~ all_explicitly_empty user_ids group_ids role_ids ->
  send_notification source variant_ subject message
    publication_time expiration_time user_ids group_ids role_ids w
  = transport
      (mkRequest POST None None
         (Some (PyDict
            [("recipients", recipients_of user_ids group_ids role_ids);
             ("notification",
              notification_body source variant_ "message"
                (message_content subject message)
                expiration_time publication_time)]))) w.
Proof.
  intros Hne. unfold send_notification.
  destruct (ids_eqb user_ids group_ids && ids_eqb group_ids role_ids
            && ids_eqb role_ids (Some [])) eqn:Hc.
  - apply no_recipients_check in Hc. contradiction.
  - rewrite bind_raise_if_false. unfold _post, recipients_of.
    rewrite !or_else_supplied.
    destruct expiration_time, publication_time; reflexivity.
Qed.

Lemma broadcast_notification_posts
    source variant_ subject message action_links
    publication_time expiration_time w :
  links_pass action_links ->
  broadcast_notification source variant_ subject message action_links
    publication_time expiration_time w
  = transport
      (mkRequest POST (Some (_make_url (Some "broadcast"))) None
         (Some (notification_body source variant_ "broadcast"
                  (broadcast_content subject message action_links)
                  expiration_time publication_time))) w.
Proof.
  intros Hok. unfold broadcast_notification, bind.
  destruct action_links as [[| item items] |]; cbn [if_truthy truth
    option_Truthy list_Truthy ret].
  - destruct expiration_time, publication_time; reflexivity.
  - unfold bind. rewrite format_links_run.
    rewrite (find_none_iff_all_valid _ Hok). cbn [ret app].
    destruct expiration_time, publication_time; reflexivity.
  - destruct expiration_time, publication_time; reflexivity.
Qed.

(** *** [send_notification]: the recipient check *)

(** C1.  A call of [send_notification] that passes the empty list for
    each of [user_ids], [group_ids] and [role_ids] raises the
    invalid-argument error "The message has no recipients."; the log of
    requests and the service are left as they were, so the transport was
    never invoked. *)
Theorem send_notification_empty_lists_rejected
    source variant_ subject message publication_time expiration_time w :
  rejects
    (send_notification source variant_ subject message
       publication_time expiration_time (Some []) (Some []) (Some []))
    w (ValueError "The message has no recipients.")
  /\ sent (snd (send_notification source variant_ subject message
                  publication_time expiration_time
                  (Some []) (Some []) (Some []) w)) = sent w.
Proof. split; reflexivity. Qed.

(** C2, at the call that leaves out all three recipient lists.  The call
    has no recipient in any of the three dimensions, and still it is not
    rejected: one POST goes out, with three empty recipient lists. *)
Theorem send_notification_omitted_recipients_posted w :
  issues_only
    (send_notification "galaxy" info "subject" "message"
       None None None None None)
    w
    (mkRequest POST None None
       (Some (PyDict
          [("recipients",
            PyDict [("user_ids", PyList []);
                    ("group_ids", PyList []);
                    ("role_ids", PyList [])]);
           ("notification",
            PyDict [("source", PyStr "galaxy");
                    ("variant", PyStr "info");
                    ("category", PyStr "message");
                    ("content",
                     PyDict [("category", PyStr "message");
                             ("subject", PyStr "subject");
                             ("message", PyStr "message")])])]))).
Proof. apply transport_issues_only. Qed.

(** C10.  [send_notification] raises its invalid-argument error if and
    only if [user_ids], [group_ids] and [role_ids] are all three the
    empty list.  In every other case, the one with all three left out
    (None) included, no invalid-argument error is raised and exactly one
    POST is issued, whose recipients object holds the lists that were
    passed and the empty list for each list that was left out. *)
Theorem send_notification_raises_iff_all_explicitly_empty
    source variant_ subject message publication_time expiration_time
    user_ids group_ids role_ids w :
  (fst (send_notification source variant_ subject message
          publication_time expiration_time user_ids group_ids role_ids w)
     = Raise (ValueError "The message has no recipients.")
   <-> all_explicitly_empty user_ids group_ids role_ids)
  /\ (~ all_explicitly_empty user_ids group_ids role_ids ->
      (forall msg,
         fst (send_notification source variant_ subject message
                publication_time expiration_time
                user_ids group_ids role_ids w)
         <> Raise (ValueError msg))
      /\ exists payload,
           issues_only
             (send_notification source variant_ subject message
                publication_time expiration_time
                user_ids group_ids role_ids)
             w (mkRequest POST None None (Some payload))
           /\ field "recipients" payload
              = Some (recipients_of user_ids group_ids role_ids)).
Proof.
  assert (Hposted :
    ~ all_explicitly_empty user_ids group_ids role_ids ->
    exists payload,
      issues_only
        (send_notification source variant_ subject message
           publication_time expiration_time user_ids group_ids role_ids)
        w (mkRequest POST None None (Some payload))
      /\ field "recipients" payload
         = Some (recipients_of user_ids group_ids role_ids)).
  { intros Hne. eexists. split.
    - unfold issues_only.
      rewrite (send_notification_posts _ _ _ _ _ _ _ _ _ _ Hne).
      apply transport_issues_only.
    - reflexivity. }
  split.
  - split.
    + intros Hraise.
      destruct (ids_eqb user_ids group_ids && ids_eqb group_ids role_ids
                && ids_eqb role_ids (Some [])) eqn:Hc.
      * now apply no_recipients_check.
      * assert (Hne : ~ all_explicitly_empty user_ids group_ids role_ids).
        { intros Hall. apply no_recipients_check in Hall. congruence. }
        destruct (Hposted Hne) as (payload & Hone & _).
        now apply issues_only_not_ValueError with (msg :=
          "The message has no recipients.") in Hone.
    + intros (-> & -> & ->). reflexivity.
  - intros Hne. split; [| now apply Hposted].
    intros msg. destruct (Hposted Hne) as (payload & Hone & _).
    now apply issues_only_not_ValueError with (msg := msg) in Hone.
Qed.

(** C5.  When at least one of [user_ids], [group_ids], [role_ids] is a
    non-empty list, [send_notification] issues exactly one POST, and the
    recipients object of its payload holds the three lists as they were
    passed, element for element and in order, with the empty list for a
    list that was left out. *)
Theorem send_notification_recipients_mirrored
    source variant_ subject message publication_time expiration_time
    user_ids group_ids role_ids w :
  nonempty user_ids \/ nonempty group_ids \/ nonempty role_ids ->
  exists payload,
    issues_only
      (send_notification source variant_ subject message
         publication_time expiration_time user_ids group_ids role_ids)
      w (mkRequest POST None None (Some payload))
    /\ path ["recipients"; "user_ids"] payload
       = Some (PyList (map PyStr (supplied user_ids)))
    /\ path ["recipients"; "group_ids"] payload
       = Some (PyList (map PyStr (supplied group_ids)))
    /\ path ["recipients"; "role_ids"] payload
       = Some (PyList (map PyStr (supplied role_ids)))
    /\ option_map (fun v => match v with PyDict d => keys d | _ => [] end)
         (field "recipients" payload)
       = Some ["user_ids"; "group_ids"; "role_ids"].
Proof.
  intros Hsome.
  assert (Hne : ~ all_explicitly_empty user_ids group_ids role_ids).
  { intros (Hu & Hg & Hr).
    destruct Hsome as [(x & l & Hx) | [(x & l & Hx) | (x & l & Hx)]];
      congruence. }
  eexists. split.
  - unfold issues_only.
    rewrite (send_notification_posts _ _ _ _ _ _ _ _ _ _ Hne).
    apply transport_issues_only.
  - repeat split; reflexivity.
Qed.

(** *** [broadcast_notification]: the action links *)

(** C3.  When the [action_links] mapping of a call of
    [broadcast_notification] holds at least one value that starts neither
    with "http://" nor with "https://", the call raises an
    invalid-argument error that names such a link, and no request is
    issued, whatever the other links are. *)
Theorem broadcast_notification_invalid_link_rejected
    source variant_ subject message items publication_time expiration_time w :
  Exists (fun kv => valid_link (snd kv) = false) items ->
  exists v,
    In v (map snd items)
    /\ valid_link v = false
    /\ rejects
         (broadcast_notification source variant_ subject message
            (Some items) publication_time expiration_time)
         w (ValueError ("Link " ++ v ++ " is not a valid URL."))
    /\ sent (snd (broadcast_notification source variant_ subject message
                    (Some items) publication_time expiration_time w))
       = sent w.
Proof.
  intros Hbad.
  destruct (find_some_of_invalid _ Hbad) as (kv & Hfind).
  pose proof (find_some _ _ Hfind) as [Hin Hinvalid].
  assert (Hrun :
    broadcast_notification source variant_ subject message
      (Some items) publication_time expiration_time w
    = (Raise (ValueError ("Link " ++ snd kv ++ " is not a valid URL.")), w)).
  { unfold broadcast_notification, bind.
    destruct items as [| item items]; [inversion Hbad |].
    cbn [if_truthy truth option_Truthy list_Truthy].
    unfold bind. now rewrite format_links_run, Hfind. }
  exists (snd kv). repeat split.
  - now apply in_map.
  - now apply negb_true_iff.
  - exact Hrun.
  - now rewrite Hrun.
Qed.

(** C4.  When the [action_links] mapping is not empty and each of its
    values starts with "http://" or "https://", the content of the
    payload that [broadcast_notification] posts holds, under
    [action_links], one [{action_name: key, link: value}] entry per item
    of the mapping, in the mapping's insertion order. *)
Theorem broadcast_notification_action_links_in_order
    source variant_ subject message items publication_time expiration_time w :
  items <> [] ->
  Forall (fun kv => valid_link (snd kv) = true) items ->
  exists payload,
    issues_only
      (broadcast_notification source variant_ subject message
         (Some items) publication_time expiration_time)
      w (mkRequest POST (Some (_make_url (Some "broadcast"))) None
           (Some payload))
    /\ path ["content"; "action_links"] payload
       = Some (PyList
                 (map (fun kv => PyDict [("action_name", PyStr (fst kv));
                                         ("link", PyStr (snd kv))])
                      items)).
Proof.
  intros Hitems Hvalid. eexists. split.
  - unfold issues_only.
    rewrite (broadcast_notification_posts _ _ _ _ (Some items) _ _ _ Hvalid).
    apply transport_issues_only.
  - destruct items as [| item items]; [contradiction |]. reflexivity.
Qed.

(** C9.  [broadcast_notification] with the empty mapping for
    [action_links] does what it does when [action_links] is left out:
    no link is checked, the POST is issued, and the content of its
    payload has no [action_links] field at all. *)
Theorem broadcast_notification_empty_links_as_omitted
    source variant_ subject message publication_time expiration_time w :
  broadcast_notification source variant_ subject message
    (Some []) publication_time expiration_time w
  = broadcast_notification source variant_ subject message
      None publication_time expiration_time w
  /\ exists payload content,
       issues_only
         (broadcast_notification source variant_ subject message
            (Some []) publication_time expiration_time)
         w (mkRequest POST (Some (_make_url (Some "broadcast"))) None
              (Some payload))
       /\ field "content" payload = Some content
       /\ field "action_links" content = None
       /\ content <> PyNone.
Proof.
  split; [reflexivity |].
  do 2 eexists. split; [| split; [| split]].
  - unfold issues_only.
    rewrite (broadcast_notification_posts _ _ _ _ (Some []) _ _ _
               (Forall_nil _)).
    apply transport_issues_only.
  - reflexivity.
  - reflexivity.
  - discriminate.
Qed.

(** *** Time stamps *)

(** C8.  A call of [broadcast_notification] that passes the link check
    posts one body [{source, variant, category: "broadcast", content}],
    followed by [expiration_time] and [publication_time], each there if and
    only if the argument was supplied and then holding the string form of
    the time stamp.  The notification that [send_notification] posts has
    the same two fields under the same rule. *)
Theorem timestamps_present_iff_supplied :
  (forall source variant_ subject message action_links
          publication_time expiration_time w,
      links_pass action_links ->
      exists content body,
        issues_only
          (broadcast_notification source variant_ subject message
             action_links publication_time expiration_time)
          w (mkRequest POST (Some (_make_url (Some "broadcast"))) None
               (Some (PyDict body)))
        /\ body = ([("source", PyStr source);
                    ("variant", PyStr (variant_str variant_));
                    ("category", PyStr "broadcast");
                    ("content", content)]
                   ++ timestamp_field "expiration_time" expiration_time
                   ++ timestamp_field "publication_time" publication_time)%list
        /\ dict_get body "expiration_time"
           = option_map (fun t => PyStr (datetime_str t)) expiration_time
        /\ dict_get body "publication_time"
           = option_map (fun t => PyStr (datetime_str t)) publication_time)
  /\
  (forall source variant_ subject message publication_time expiration_time
          user_ids group_ids role_ids w,
      ~ all_explicitly_empty user_ids group_ids role_ids ->
      exists recipients content body,
        issues_only
          (send_notification source variant_ subject message
             publication_time expiration_time user_ids group_ids role_ids)
          w (mkRequest POST None None
               (Some (PyDict [("recipients", recipients);
                              ("notification", PyDict body)])))
        /\ body = ([("source", PyStr source);
                    ("variant", PyStr (variant_str variant_));
                    ("category", PyStr "message");
                    ("content", content)]
                   ++ timestamp_field "expiration_time" expiration_time
                   ++ timestamp_field "publication_time" publication_time)%list
        /\ dict_get body "expiration_time"
           = option_map (fun t => PyStr (datetime_str t)) expiration_time
        /\ dict_get body "publication_time"
           = option_map (fun t => PyStr (datetime_str t)) publication_time).
Proof.
  split.
  - intros source variant_ subject message action_links
           publication_time expiration_time w Hok.
    do 2 eexists. split; [| split; [reflexivity |]].
    + unfold issues_only.
      rewrite (broadcast_notification_posts _ _ _ _ _ _ _ _ Hok).
      apply transport_issues_only.
    + destruct expiration_time, publication_time; split; reflexivity.
  - intros source variant_ subject message publication_time expiration_time
           user_ids group_ids role_ids w Hne.
    do 3 eexists. split; [| split; [reflexivity |]].
    + unfold issues_only.
      rewrite (send_notification_posts _ _ _ _ _ _ _ _ _ _ Hne).
      apply transport_issues_only.
    + destruct expiration_time, publication_time; split; reflexivity.
Qed.

(** *** Preferences and listing *)

(** C6.  For any four booleans, [update_notification_preferences] issues
    exactly one PUT to the preferences URL.  Its body is
    [{preferences: {message: {enabled, channels: {push}},
                    new_shared_item: {enabled, channels: {push}}}}],
    where [message_notifications] and [push_notifications_message] fill the
    message category and [new_item_notifications] and
    [push_notifications_new_items] the new-shared-item category.  The call
    returns the decoded answer of the service as it is. *)
Theorem update_notification_preferences_puts
    (message_notifications push_notifications_message
     new_item_notifications push_notifications_new_items : bool) w :
  let body :=
    PyDict
      [("preferences",
        PyDict
          [("message",
            category_settings message_notifications
              push_notifications_message);
           ("new_shared_item",
            category_settings new_item_notifications
              push_notifications_new_items)])] in
  let call :=
    update_notification_preferences
      message_notifications push_notifications_message
      new_item_notifications push_notifications_new_items in
  issues_only call w
    (mkRequest PUT (Some (_make_url (Some "preferences"))) None (Some body))
  /\ path ["preferences"; "message"; "enabled"] body
     = Some (PyBool message_notifications)
  /\ path ["preferences"; "message"; "channels"; "push"] body
     = Some (PyBool push_notifications_message)
  /\ path ["preferences"; "new_shared_item"; "enabled"] body
     = Some (PyBool new_item_notifications)
  /\ path ["preferences"; "new_shared_item"; "channels"; "push"] body
     = Some (PyBool push_notifications_new_items)
  /\ fst (call w)
     = decode (fst (serve (mkRequest PUT
                             (Some (_make_url (Some "preferences")))
                             None (Some body))
                      (remote w))).
Proof.
  cbv zeta. split; [apply transport_issues_only |].
  repeat split; reflexivity.
Qed.

(** C7.  For any [limit] and [offset], [get_user_notifications] issues
    exactly one GET.  Its query parameters are [limit] and [offset] and
    nothing else: the limit that was passed, or 20 when [limit] was left
    out, and the offset that was passed, or None (no offset, the service's
    default applies) when [offset] was left out.  The decoded answer is
    returned as it is: the client neither filters nor slices it. *)
Theorem get_user_notifications_passes_parameters
    (limit offset : kwarg (option Z)) w :
  let limit_sent :=
    match limit with
    | Omitted => PyInt 20
    | Passed (Some n) => PyInt n
    | Passed None => PyNone
    end in
  let offset_sent :=
    match offset with
    | Passed (Some n) => PyInt n
    | _ => PyNone
    end in
  let query := mkRequest GET None
                 (Some (PyDict [("limit", limit_sent);
                                ("offset", offset_sent)])) None in
  issues_only (get_user_notifications limit offset) w query
  /\ fst (get_user_notifications limit offset w)
     = decode (fst (serve query (remote w))).
Proof.
  cbv zeta.
  assert (Hrun :
    get_user_notifications limit offset w
    = transport
        (mkRequest GET None
           (Some (PyDict
              [("limit",
                match limit with
                | Omitted => PyInt 20
                | Passed (Some n) => PyInt n
                | Passed None => PyNone
                end);
               ("offset",
                match offset with
                | Passed (Some n) => PyInt n
                | _ => PyNone
                end)])) None) w).
  { destruct limit as [| [n |]], offset as [| [m |]]; reflexivity. }
  split.
  - unfold issues_only. rewrite Hrun. apply transport_issues_only.
  - rewrite Hrun. reflexivity.
Qed.

End Properties.

(** ** The properties at work on the demo service *)

(** [send_notification(..., user_ids=["u1", "u2"], role_ids=[])] *)
Lemma send_notification_recipients_mirrored_witness :
  (nonempty (Some ["u1"; "u2"]) \/ nonempty None \/ nonempty (Some []))
  /\ exists payload,
       issues_only (H := Demo.env)
         (send_notification (H := Demo.env) "notifications_test" info
            "Testing Subject" "Testing Message"
            None (Some Demo.tomorrow) (Some ["u1"; "u2"]) None (Some []))
         Demo.start (mkRequest POST None None (Some payload))
       /\ path ["recipients"; "user_ids"] payload
          = Some (PyList [PyStr "u1"; PyStr "u2"])
       /\ path ["recipients"; "group_ids"] payload = Some (PyList [])
       /\ path ["recipients"; "role_ids"] payload = Some (PyList [])
       /\ option_map (fun v => match v with PyDict d => keys d | _ => [] end)
            (field "recipients" payload)
          = Some ["user_ids"; "group_ids"; "role_ids"].
Proof.
  assert (Hsome : nonempty (Some ["u1"; "u2"]) \/ nonempty None
                  \/ nonempty (Some [])).
  { left. exists "u1", ["u2"]. reflexivity. }
  split; [exact Hsome |].
  exact (send_notification_recipients_mirrored (H := Demo.env)
           "notifications_test" info "Testing Subject" "Testing Message"
           None (Some Demo.tomorrow) (Some ["u1"; "u2"]) None (Some [])
           Demo.start Hsome).
Defined.

(** [send_notification(...)] with no recipient argument at all *)
Lemma send_notification_raises_iff_witness :
  ~ all_explicitly_empty None None None
  /\ (forall msg,
        fst (send_notification (H := Demo.env) "galaxy" info "s" "m"
               None None None None None Demo.start)
        <> Raise (ValueError msg))
  /\ exists payload,
       issues_only (H := Demo.env)
         (send_notification (H := Demo.env) "galaxy" info "s" "m"
            None None None None None)
         Demo.start (mkRequest POST None None (Some payload))
       /\ field "recipients" payload = Some (recipients_of None None None).
Proof.
  assert (Hne : ~ all_explicitly_empty None None None).
  { intros (Hu & _). discriminate Hu. }
  split; [exact Hne |].
  exact (proj2 (send_notification_raises_iff_all_explicitly_empty
                  (H := Demo.env) "galaxy" info "s" "m"
                  None None None None None Demo.start) Hne).
Defined.

(** [broadcast_notification(..., action_links={"x": "ftp://bad"})] *)
Lemma broadcast_notification_invalid_link_witness :
  Exists (fun kv => valid_link (snd kv) = false) [("x", "ftp://bad")]
  /\ exists v,
       In v ["ftp://bad"]
       /\ valid_link v = false
       /\ rejects (H := Demo.env)
            (broadcast_notification (H := Demo.env) "galaxy" urgent "s" "m"
               (Some [("x", "ftp://bad")]) None None)
            Demo.start (ValueError ("Link " ++ v ++ " is not a valid URL."))
       /\ sent (snd (broadcast_notification (H := Demo.env)
                       "galaxy" urgent "s" "m"
                       (Some [("x", "ftp://bad")]) None None Demo.start))
          = [].
Proof.
  assert (Hbad : Exists (fun kv => valid_link (snd kv) = false)
                   [("x", "ftp://bad")]).
  { apply Exists_cons_hd. reflexivity. }
  split; [exact Hbad |].
  exact (broadcast_notification_invalid_link_rejected (H := Demo.env)
           "galaxy" urgent "s" "m" [("x", "ftp://bad")] None None
           Demo.start Hbad).
Defined.

(** [broadcast_notification(...,
      action_links={"link_1": "https://a", "link_2": "http://b"})] *)
Lemma broadcast_notification_action_links_witness :
  [("link_1", "https://a"); ("link_2", "http://b")] <> []
  /\ Forall (fun kv => valid_link (snd kv) = true)
       [("link_1", "https://a"); ("link_2", "http://b")]
  /\ exists payload,
       issues_only (H := Demo.env)
         (broadcast_notification (H := Demo.env) "galaxy" info "s" "m"
            (Some [("link_1", "https://a"); ("link_2", "http://b")])
            None None)
         Demo.start
         (mkRequest POST (Some "api/notifications/broadcast") None
            (Some payload))
       /\ path ["content"; "action_links"] payload
          = Some (PyList
                    [PyDict [("action_name", PyStr "link_1");
                             ("link", PyStr "https://a")];
                     PyDict [("action_name", PyStr "link_2");
                             ("link", PyStr "http://b")]]).
Proof.
  assert (Hitems : [("link_1", "https://a"); ("link_2", "http://b")] <> [])
    by discriminate.
  assert (Hvalid : Forall (fun kv => valid_link (snd kv) = true)
                     [("link_1", "https://a"); ("link_2", "http://b")]).
  { repeat constructor. }
  split; [exact Hitems |]. split; [exact Hvalid |].
  exact (broadcast_notification_action_links_in_order (H := Demo.env)
           "galaxy" info "s" "m"
           [("link_1", "https://a"); ("link_2", "http://b")] None None
           Demo.start Hitems Hvalid).
Defined.

(** A broadcast with one good link and an expiration time, and no
    publication time. *)
Lemma timestamps_present_iff_supplied_witness :
  links_pass (Some [("link_1", "https://link1.de")])
  /\ exists content body,
       issues_only (H := Demo.env)
         (broadcast_notification (H := Demo.env) "notifications_test" info
            "Testing Subject" "Testing Message"
            (Some [("link_1", "https://link1.de")])
            None (Some Demo.tomorrow))
         Demo.start
         (mkRequest POST (Some "api/notifications/broadcast") None
            (Some (PyDict body)))
       /\ body = [("source", PyStr "notifications_test");
                  ("variant", PyStr "info");
                  ("category", PyStr "broadcast");
                  ("content", content);
                  ("expiration_time", PyStr "2023-07-14 09:30:00")]
       /\ dict_get body "expiration_time"
          = Some (PyStr "2023-07-14 09:30:00")
       /\ dict_get body "publication_time" = None.
Proof.
  assert (Hok : links_pass (Some [("link_1", "https://link1.de")])).
  { repeat constructor. }
  split; [exact Hok |].
  exact (proj1 (timestamps_present_iff_supplied (H := Demo.env))
           "notifications_test" info "Testing Subject" "Testing Message"
           (Some [("link_1", "https://link1.de")])
           None (Some Demo.tomorrow) Demo.start Hok).
Defined.

(** The calls of the specification's examples, run. *)

Example send_notification_empty_lists_run :
  send_notification (H := Demo.env) "galaxy" info "s" "m"
    None None (Some []) (Some []) (Some []) Demo.start
  = (Raise (ValueError "The message has no recipients."), Demo.start).
Proof. reflexivity. Qed.

Example send_notification_one_list_omitted_run :
  fst (send_notification (H := Demo.env) "galaxy" info "s" "m"
         None None None (Some []) (Some []) Demo.start)
  = Return (PyDict [("request", PyInt 0)]).
Proof. reflexivity. Qed.

Example broadcast_notification_bad_link_after_good_run :
  broadcast_notification (H := Demo.env) "galaxy" info "s" "m"
    (Some [("ok", "https://a"); ("x", "ftp://bad"); ("y", "mailto:b")])
    None None Demo.start
  = (Raise (ValueError "Link ftp://bad is not a valid URL."), Demo.start).
Proof. reflexivity. Qed.

Example get_user_notifications_default_run :
  sent (snd (get_user_notifications (H := Demo.env) Omitted Omitted
               Demo.start))
  = [mkRequest GET None
       (Some (PyDict [("limit", PyInt 20); ("offset", PyNone)])) None].
Proof. reflexivity. Qed.

Example get_user_notifications_page_run :
  sent (snd (get_user_notifications (H := Demo.env)
               (Passed (Some 1%Z)) (Passed (Some 1%Z)) Demo.start))
  = [mkRequest GET None
       (Some (PyDict [("limit", PyInt 1); ("offset", PyInt 1)])) None].
Proof. reflexivity. Qed.

(** ** Further properties of the client *)

Section Coverage.

Context `{Environment}.

(** *** Strings *)

Lemma string_append_assoc (a b c : string) : (a ++ b) ++ c = a ++ (b ++ c).
Proof. induction a as [| x a IH]; cbn; [reflexivity | now rewrite IH]. Qed.

Lemma string_length_append (a b : string) :
  String.length (a ++ b) = String.length a + String.length b.
Proof. induction a as [| x a IH]; cbn; [reflexivity | now rewrite IH]. Qed.

Lemma string_append_inv_head (a b c : string) : a ++ b = a ++ c -> b = c.
Proof.
  induction a as [| x a IH]; cbn; intros Heq; [exact Heq |].
  injection Heq as Heq. now apply IH.
Qed.

Lemma prefix_iff_append (p s : string) :
  prefix p s = true <-> exists rest, s = p ++ rest.
Proof.
  revert s. induction p as [| x p IH]; intros s.
  - destruct s; cbn; split; eauto.
  - destruct s as [| y s]; cbn.
    + split; [discriminate | intros (rest & Hrest); discriminate].
    + destruct (ascii_dec x y) as [-> | Hxy].
      * rewrite IH. split; intros (rest & Hrest); exists rest.
        -- now rewrite Hrest.
        -- now injection Hrest.
      * split; [discriminate |].
        intros (rest & Hrest). injection Hrest as Hy _. congruence.
Qed.

Lemma valid_link_iff_web_scheme (v : string) :
  valid_link v = true <-> has_web_scheme v.
Proof.
  unfold valid_link, starts_with, has_web_scheme.
  rewrite orb_true_iff, !prefix_iff_append.
  split.
  - intros [(rest & Hrest) | (rest & Hrest)]; exists rest; auto.
  - intros (rest & [Hrest | Hrest]); [left | right]; now exists rest.
Qed.

Lemma short_link_not_valid (v : string) :
  String.length v < 7 -> valid_link v = false.
Proof.
  intros Hshort. destruct (valid_link v) eqn:Hv; [| reflexivity].
  apply valid_link_iff_web_scheme in Hv as (rest & [Hrest | Hrest]);
    rewrite Hrest, string_length_append in Hshort; cbn in Hshort;
    exfalso; revert Hshort; apply Nat.le_ngt;
    repeat apply le_n_S; apply Nat.le_0_l.
Qed.

(** *** Outcomes *)

Lemma rejected_not_issued (m : M value) w e r :
  rejects m w e -> ~ issues_only m w r.
Proof.
  unfold rejects. intros Hrej (Hsent & _). rewrite Hrej in Hsent.
  cbn in Hsent. apply (f_equal (@List.length request)) in Hsent.
  rewrite length_app in Hsent. cbn in Hsent.
  rewrite Nat.add_1_r in Hsent. now apply n_Sn in Hsent.
Qed.

Lemma issues_only_unique (m : M value) w r1 r2 :
  issues_only m w r1 -> issues_only m w r2 -> r1 = r2.
Proof.
  intros (Hs1 & _) (Hs2 & _). rewrite Hs1 in Hs2.
  apply app_inv_head in Hs2. now injection Hs2.
Qed.

Lemma find_none_all_valid (items : list (string * string)) :
  find (fun kv => negb (valid_link (snd kv))) items = None ->
  Forall (fun kv => valid_link (snd kv) = true) items.
Proof.
  induction items as [| kv rest IH]; cbn; intros Hfind; [constructor |].
  destruct (valid_link (snd kv)) eqn:Hv; cbn in Hfind; [| discriminate].
  constructor; auto.
Qed.

(** The first link that fails the check, if there is one. *)
Lemma broadcast_notification_run
    source variant_ subject message action_links
    publication_time expiration_time w :
  broadcast_notification source variant_ subject message action_links
    publication_time expiration_time w
  = match find (fun kv => negb (valid_link (snd kv)))
            (match action_links with Some items => items | None => [] end)
    with
    | Some kv =>
        (Raise (ValueError ("Link " ++ snd kv ++ " is not a valid URL.")), w)
    | None =>
        transport
          (mkRequest POST (Some (_make_url (Some "broadcast"))) None
             (Some (notification_body source variant_ "broadcast"
                      (broadcast_content subject message action_links)
                      expiration_time publication_time))) w
    end.
Proof.
  destruct (find _ _) as [kv |] eqn:Hfind.
  - destruct action_links as [[| item items] |]; try discriminate Hfind.
    unfold broadcast_notification, bind.
    cbn [if_truthy truth option_Truthy list_Truthy].
    unfold bind. now rewrite format_links_run, Hfind.
  - apply broadcast_notification_posts.
    destruct action_links as [items |]; cbn; [| exact I].
    now apply find_none_all_valid.
Qed.

(** *** The link check, in full *)

(** X1.  [broadcast_notification] raises an invalid-argument error exactly
    when an [action_links] mapping was passed that holds a link starting
    neither with "http://" nor with "https://"; and whenever it raises
    one, no request has been issued and the service is untouched. *)
Theorem broadcast_notification_raises_iff_invalid_link
    source variant_ subject message action_links
    publication_time expiration_time w :
  ((exists msg,
      fst (broadcast_notification source variant_ subject message
             action_links publication_time expiration_time w)
      = Raise (ValueError msg))
   <-> exists items,
         action_links = Some items
         /\ Exists (fun kv => valid_link (snd kv) = false) items)
  /\ forall msg,
       fst (broadcast_notification source variant_ subject message
              action_links publication_time expiration_time w)
       = Raise (ValueError msg) ->
       snd (broadcast_notification source variant_ subject message
              action_links publication_time expiration_time w) = w.
Proof.
  rewrite broadcast_notification_run.
  destruct (find _ _) as [kv |] eqn:Hfind.
  - split; [| reflexivity]. split; [| intros _; eexists; reflexivity].
    intros _. destruct action_links as [items |]; [| discriminate Hfind].
    exists items. split; [reflexivity |].
    apply Exists_exists. exists kv.
    apply find_some in Hfind as [Hin Hbad].
    split; [exact Hin | now apply negb_true_iff].
  - split.
    + split.
      * intros (msg & Hmsg). cbn in Hmsg.
        destruct (fst (serve _ _)); discriminate Hmsg.
      * intros (items & -> & Hbad).
        apply find_some_of_invalid in Hbad as (kv & Hkv). congruence.
    + intros msg Hmsg. cbn in Hmsg.
      destruct (fst (serve _ _)); discriminate Hmsg.
Qed.

(** X2.  When several links fail the check, the error names the first of
    them in the mapping's insertion order: the links before it were
    accepted, the links after it are not looked at. *)
Theorem broadcast_notification_names_first_invalid_link
    source variant_ subject message before k v after
    publication_time expiration_time w :
  Forall (fun kv => valid_link (snd kv) = true) before ->
  valid_link v = false ->
  rejects
    (broadcast_notification source variant_ subject message
       (Some (before ++ (k, v) :: after)%list)
       publication_time expiration_time)
    w (ValueError ("Link " ++ v ++ " is not a valid URL.")).
Proof.
  intros Hbefore Hv. unfold rejects. rewrite broadcast_notification_run.
  assert (Hfind :
    find (fun kv => negb (valid_link (snd kv)))
      (before ++ (k, v) :: after)%list = Some (k, v)).
  { induction Hbefore as [| kv rest Hkv _ IH]; cbn.
    - now rewrite Hv.
    - now rewrite Hkv. }
  now rewrite Hfind.
Qed.

(** X3.  A mapping with a single link [v] gets through to the service
    exactly when [v] is "http://" or "https://" followed by any rest, the
    empty rest included: the check looks at the first seven or eight
    characters and at nothing else. *)
Theorem broadcast_notification_accepts_iff_web_scheme
    source variant_ subject message k v publication_time expiration_time w :
  (exists r,
     issues_only
       (broadcast_notification source variant_ subject message
          (Some [(k, v)]) publication_time expiration_time)
       w r)
  <-> has_web_scheme v.
Proof.
  rewrite <- valid_link_iff_web_scheme. split.
  - intros (r & Hr). destruct (valid_link v) eqn:Hv; [reflexivity |].
    exfalso. revert Hr. apply rejected_not_issued with
      (e := ValueError ("Link " ++ v ++ " is not a valid URL.")).
    unfold rejects. rewrite broadcast_notification_run.
    cbn [find snd]. now rewrite Hv.
  - intros Hv. eexists. unfold issues_only.
    rewrite broadcast_notification_run. cbn [find snd]. rewrite Hv.
    cbn [negb]. apply transport_issues_only.
Qed.

(** X4.  A mapping that holds a link of fewer than seven characters, the
    empty link for one, is always rejected with an invalid-argument
    error and without a request. *)
Theorem broadcast_notification_short_link_rejected
    source variant_ subject message items k v
    publication_time expiration_time w :
  In (k, v) items ->
  String.length v < 7 ->
  exists msg,
    rejects
      (broadcast_notification source variant_ subject message
         (Some items) publication_time expiration_time)
      w (ValueError msg).
Proof.
  intros Hin Hshort. unfold rejects. rewrite broadcast_notification_run.
  destruct (find _ _) as [kv |] eqn:Hfind; [eauto |].
  exfalso. apply find_none_all_valid in Hfind.
  rewrite Forall_forall in Hfind. specialize (Hfind _ Hin). cbn in Hfind.
  rewrite (short_link_not_valid v Hshort) in Hfind. discriminate.
Qed.

(** *** All methods at once *)

(** What a call can do: be rejected before anything is sent, or make one
    round trip with a request of the shape that fits the method. *)
Lemma perform_run (c : call) (w : world) :
  (exists msg, perform c w = (Raise (ValueError msg), w))
  \/ exists r,
       perform c w = transport r w
       /\ (reads c = true ->
           req_method r = GET /\ req_payload r = None)
       /\ (reads c = false ->
           req_method r <> GET /\ req_params r = None
           /\ req_payload r <> None).
Proof.
  destruct c; cbn [perform reads].
  1-5: right; eexists; split; [reflexivity |]; cbn;
       split; intros Hr; try discriminate Hr; repeat split; discriminate.
  - destruct (ids_eqb user_ids group_ids && ids_eqb group_ids role_ids
              && ids_eqb role_ids (Some [])) eqn:Hc.
    + apply no_recipients_check in Hc as (-> & -> & ->).
      left. eexists. reflexivity.
    + right. eexists. split.
      * apply send_notification_posts. intros Hall.
        apply no_recipients_check in Hall. congruence.
      * cbn. split; intros Hr; [discriminate Hr |].
        repeat split; discriminate.
  - rewrite broadcast_notification_run.
    destruct (find _ _) as [kv |].
    + left. eexists. reflexivity.
    + right. eexists. split; [reflexivity |].
      cbn. split; intros Hr; [discriminate Hr |].
      repeat split; discriminate.
Qed.

(** X5.  Whatever the method and its arguments, a call does one of two
    things: it raises an invalid-argument error and leaves the log of
    requests and the service as they were, or it issues exactly one
    request and hands back what the transport made of the answer (the
    decoded body, or the transport's own error). *)
Theorem perform_rejects_or_issues_one (c : call) (w : world) :
  (exists msg, rejects (perform c) w (ValueError msg))
  \/ (exists r, issues_only (perform c) w r).
Proof.
  destruct (perform_run c w) as [(msg & Hrun) | (r & Hrun & _)].
  - left. now exists msg.
  - right. exists r. unfold issues_only. rewrite Hrun.
    apply transport_issues_only.
Qed.

(** X6.  The methods that read ([get_notification_status],
    [get_notification_preferences], [get_user_notifications],
    [show_notification]) only ever issue a GET without a body; the other
    three never issue a GET, and their request has a body and no query
    parameters. *)
Theorem reads_get_writes_carry_body (c : call) (w : world) (r : request) :
  issues_only (perform c) w r ->
  (reads c = true -> req_method r = GET /\ req_payload r = None)
  /\ (reads c = false ->
      req_method r <> GET /\ req_params r = None /\ req_payload r <> None).
Proof.
  intros Hr.
  destruct (perform_run c w) as [(msg & Hrun) | (r' & Hrun & Hshape)].
  - exfalso. revert Hr. now apply rejected_not_issued with
      (e := ValueError msg).
  - assert (Hr' : issues_only (perform c) w r').
    { unfold issues_only. rewrite Hrun. apply transport_issues_only. }
    now rewrite (issues_only_unique _ _ _ _ Hr Hr').
Qed.

(** One step of a script. *)
Lemma script_cons (c : call) (cs : list call) (w : world) :
  script (c :: cs) w
  = match perform c w with
    | (Return v, w1) =>
        match script cs w1 with
        | (Return vs, w2) => (Return (v :: vs), w2)
        | (Raise e, w2) => (Raise e, w2)
        end
    | (Raise e, w1) => (Raise e, w1)
    end.
Proof.
  cbn [script]. unfold bind. destruct (perform c w) as [[v | e] w1];
    [| reflexivity].
  destruct (script cs w1) as [[vs | e] w2]; reflexivity.
Qed.

(** X7.  A script of calls only appends to the log of requests, at most
    one request per call; and when the script runs to its end without an
    exception, it has issued exactly one request per call and has one
    result per call. *)
Theorem script_one_request_per_call (cs : list call) :
  forall w : world,
    exists rs,
      sent (snd (script cs w)) = (sent w ++ rs)%list
      /\ List.length rs <= List.length cs
      /\ forall vs,
           fst (script cs w) = Return vs ->
           List.length rs = List.length cs
           /\ List.length vs = List.length cs.
Proof.
  induction cs as [| c cs IH]; intros w.
  - exists []. cbn. rewrite app_nil_r.
    split; [reflexivity | split; [lia |]].
    intros vs Hvs. injection Hvs as <-. split; reflexivity.
  - rewrite script_cons.
    destruct (perform_run c w) as [(msg & Hrun) | (r & Hrun & _)];
      rewrite Hrun.
    + exists []. cbn. rewrite app_nil_r.
      split; [reflexivity | split; [lia | intros vs Hvs; discriminate Hvs]].
    + unfold transport. cbn [fst snd].
      destruct (fst (serve r (remote w))) as [v | e]; cbn [decode].
      * set (w1 := {| sent := (sent w ++ [r])%list;
                      remote := snd (serve r (remote w)) |}).
        destruct (IH w1) as (rs & Hsent & Hlen & Hdone).
        destruct (script cs w1) as [[results | e] w2];
          cbn [fst snd] in *.
        -- exists (r :: rs). rewrite Hsent. subst w1. cbn [sent].
           rewrite <- app_assoc. cbn.
           split; [reflexivity | split; [lia |]].
           intros vs Hvs. injection Hvs as <-.
           destruct (Hdone results eq_refl) as [Hrs Hres]. cbn. lia.
        -- exists (r :: rs). rewrite Hsent. subst w1. cbn [sent].
           rewrite <- app_assoc. cbn.
           split; [reflexivity
                  | split; [lia | intros vs Hvs; discriminate Hvs]].
      * exists [r]. cbn.
        split; [reflexivity | split; [lia | intros vs Hvs; discriminate Hvs]].
Qed.

(** *** What reaches the service *)

(** X8.  Whatever request [send_notification] or
    [broadcast_notification] issues, the subject and the message of the
    call are in the content of the notification as they were passed, and
    the category of the content is the category of the notification
    ("message", respectively "broadcast"), whichever optional arguments
    were given. *)
Theorem posted_content_carries_subject_and_message :
  (forall source variant_ subject message publication_time expiration_time
          user_ids group_ids role_ids w r,
      issues_only
        (send_notification source variant_ subject message
           publication_time expiration_time user_ids group_ids role_ids)
        w r ->
      exists payload,
        req_payload r = Some payload
        /\ path ["notification"; "category"] payload
           = Some (PyStr "message")
        /\ path ["notification"; "content"; "category"] payload
           = Some (PyStr "message")
        /\ path ["notification"; "content"; "subject"] payload
           = Some (PyStr subject)
        /\ path ["notification"; "content"; "message"] payload
           = Some (PyStr message))
  /\
  (forall source variant_ subject message action_links
          publication_time expiration_time w r,
      issues_only
        (broadcast_notification source variant_ subject message
           action_links publication_time expiration_time)
        w r ->
      exists payload,
        req_payload r = Some payload
        /\ path ["category"] payload = Some (PyStr "broadcast")
        /\ path ["content"; "category"] payload = Some (PyStr "broadcast")
        /\ path ["content"; "subject"] payload = Some (PyStr subject)
        /\ path ["content"; "message"] payload = Some (PyStr message)).
Proof.
  split.
  - intros source variant_ subject message publication_time expiration_time
           user_ids group_ids role_ids w r Hr.
    destruct (ids_eqb user_ids group_ids && ids_eqb group_ids role_ids
              && ids_eqb role_ids (Some [])) eqn:Hc.
    + apply no_recipients_check in Hc as (-> & -> & ->).
      exfalso. revert Hr. now apply rejected_not_issued with
        (e := ValueError "The message has no recipients.").
    + assert (Hne : ~ all_explicitly_empty user_ids group_ids role_ids).
      { intros Hall. apply no_recipients_check in Hall. congruence. }
      pose proof (send_notification_posts source variant_ subject message
                    publication_time expiration_time
                    user_ids group_ids role_ids w Hne) as Hrun.
      eassert (Hr' : issues_only _ w _).
      { unfold issues_only. rewrite Hrun. apply transport_issues_only. }
      rewrite (issues_only_unique _ _ _ _ Hr Hr').
      eexists. split; [reflexivity |]. repeat split; reflexivity.
  - intros source variant_ subject message action_links
           publication_time expiration_time w r Hr.
    pose proof (broadcast_notification_run source variant_ subject message
                  action_links publication_time expiration_time w) as Hrun.
    destruct (find _ _) as [kv |].
    + exfalso. revert Hr. now apply rejected_not_issued with
        (e := ValueError ("Link " ++ snd kv ++ " is not a valid URL.")).
    + eassert (Hr' : issues_only _ w _).
      { unfold issues_only. rewrite Hrun. apply transport_issues_only. }
      rewrite (issues_only_unique _ _ _ _ Hr Hr').
      eexists. split; [reflexivity |]. repeat split; reflexivity.
Qed.

(** X9.  [show_notification] asks for a URL that tells the notification
    apart: two calls that issue the same request were made for the same
    notification id. *)
Theorem show_notification_url_tells_id
    (id1 id2 : string) (w1 w2 : world) (r : request) :
  issues_only (show_notification id1) w1 r ->
  issues_only (show_notification id2) w2 r ->
  id1 = id2.
Proof.
  intros H1 H2.
  pose proof (issues_only_unique _ _ _ _ H1
                (transport_issues_only _ w1)) as E1.
  pose proof (issues_only_unique _ _ _ _ H2
                (transport_issues_only _ w2)) as E2.
  rewrite E1 in E2. injection E2 as Eurl.
  apply string_append_inv_head in Eurl.
  now apply (string_append_inv_head "/") in Eurl.
Qed.

(** X10.  The notification id goes into the URL as it is, without any
    quoting: [show_notification] called with the id
    ["status?since=" + str(t)] makes the very request of
    [get_notification_status(t)], with the same result. *)
Theorem show_notification_id_is_not_quoted (since : datetime) (w : world) :
  show_notification ("status?since=" ++ datetime_str since) w
  = get_notification_status since w.
Proof. reflexivity. Qed.

(** *** The helpers of the test suite *)

(** X11.  [_send_test_notification_to] is never rejected by the
    recipient check, not even for the empty list of users: it leaves
    [group_ids] and [role_ids] out, so one POST always goes out, with the
    users as given, no groups, no roles, an expiration time one day after
    the clock's reading and no publication time. *)
Theorem test_notification_helper_always_posts
    (utcnow : datetime) (plus_days : datetime -> Z -> datetime)
    (user_ids : list string) (subject message : option string) (w : world) :
  exists payload,
    issues_only
      (_send_test_notification_to utcnow plus_days user_ids subject message)
      w (mkRequest POST None None (Some payload))
    /\ field "recipients" payload
       = Some (PyDict [("user_ids", PyList (map PyStr user_ids));
                       ("group_ids", PyList []);
                       ("role_ids", PyList [])])
    /\ path ["notification"; "expiration_time"] payload
       = Some (PyStr (datetime_str (plus_days utcnow 1%Z)))
    /\ path ["notification"; "publication_time"] payload = None.
Proof.
  assert (Hne : ~ all_explicitly_empty (Some user_ids) None None).
  { intros (_ & Hg & _). discriminate Hg. }
  eexists. split.
  - unfold issues_only, _send_test_notification_to.
    rewrite (send_notification_posts _ _ _ _ _ _ _ _ _ _ Hne).
    apply transport_issues_only.
  - repeat split; reflexivity.
Qed.

(** X12.  [_send_test_broadcast_notification] always passes the link
    check: for any subject and message it posts one broadcast with the
    two links [link_1] and [link_2] in this order, and a subject or
    message that is left out or empty is replaced by "Testing Subject",
    respectively "Testing Message". *)
Theorem test_broadcast_helper_always_posts
    (utcnow : datetime) (plus_days : datetime -> Z -> datetime)
    (subject message : option string) (w : world) :
  exists payload,
    issues_only
      (_send_test_broadcast_notification utcnow plus_days subject message)
      w (mkRequest POST (Some (_make_url (Some "broadcast"))) None
           (Some payload))
    /\ path ["content"; "action_links"] payload
       = Some (PyList
                 [PyDict [("action_name", PyStr "link_1");
                          ("link", PyStr "https://link1.de")];
                  PyDict [("action_name", PyStr "link_2");
                          ("link", PyStr "https://link2.de")]])
    /\ path ["content"; "subject"] payload
       = Some (PyStr match subject with
                     | Some "" | None => "Testing Subject"
                     | Some s => s
                     end)
    /\ path ["content"; "message"] payload
       = Some (PyStr match message with
                     | Some "" | None => "Testing Message"
                     | Some s => s
                     end)
    /\ path ["expiration_time"] payload
       = Some (PyStr (datetime_str (plus_days utcnow 1%Z))).
Proof.
  assert (Hok : links_pass
                  (Some [("link_1", "https://link1.de");
                         ("link_2", "https://link2.de")])).
  { repeat constructor. }
  eexists. split.
  - unfold issues_only, _send_test_broadcast_notification.
    rewrite (broadcast_notification_posts _ _ _ _ _ _ _ _ Hok).
    apply transport_issues_only.
  - destruct subject as [[| c s] |], message as [[| c' s'] |];
      repeat split; reflexivity.
Qed.

End Coverage.

(** ** The further properties at work on the demo service *)

(** [action_links={"ok": "https://a", "x": "ftp://bad", "y": "mailto:b"}] *)
Lemma broadcast_notification_names_first_invalid_link_witness :
  Forall (fun kv => valid_link (snd kv) = true) [("ok", "https://a")]
  /\ valid_link "ftp://bad" = false
  /\ rejects (H := Demo.env)
       (broadcast_notification (H := Demo.env) "galaxy" info "s" "m"
          (Some [("ok", "https://a"); ("x", "ftp://bad"); ("y", "mailto:b")])
          None None)
       Demo.start (ValueError "Link ftp://bad is not a valid URL.").
Proof.
  assert (Hbefore : Forall (fun kv => valid_link (snd kv) = true)
                      [("ok", "https://a")]).
  { repeat constructor. }
  assert (Hv : valid_link "ftp://bad" = false) by reflexivity.
  split; [exact Hbefore |]. split; [exact Hv |].
  exact (broadcast_notification_names_first_invalid_link (H := Demo.env)
           "galaxy" info "s" "m" [("ok", "https://a")] "x" "ftp://bad"
           [("y", "mailto:b")] None None Demo.start Hbefore Hv).
Defined.

(** [action_links={"ok": "https://a", "empty": ""}] *)
Lemma broadcast_notification_short_link_witness :
  In ("empty", "") [("ok", "https://a"); ("empty", "")]
  /\ String.length "" < 7
  /\ exists msg,
       rejects (H := Demo.env)
         (broadcast_notification (H := Demo.env) "galaxy" info "s" "m"
            (Some [("ok", "https://a"); ("empty", "")]) None None)
         Demo.start (ValueError msg).
Proof.
  assert (Hin : In ("empty", "") [("ok", "https://a"); ("empty", "")]).
  { right. left. reflexivity. }
  assert (Hshort : String.length "" < 7) by (cbn; lia).
  split; [exact Hin |]. split; [exact Hshort |].
  exact (broadcast_notification_short_link_rejected (H := Demo.env)
           "galaxy" info "s" "m" [("ok", "https://a"); ("empty", "")]
           "empty" "" None None Demo.start Hin Hshort).
Defined.

(** [show_notification("42")] *)
Lemma reads_get_writes_carry_body_witness :
  issues_only (H := Demo.env)
    (perform (ShowNotification (H := Demo.env) "42")) Demo.start
    (mkRequest GET (Some "api/notifications/42") None None)
  /\ (reads (ShowNotification (H := Demo.env) "42") = true ->
      GET = GET /\ @None value = None)
  /\ (reads (ShowNotification (H := Demo.env) "42") = false ->
      GET <> GET /\ @None value = None /\ @None value <> None).
Proof.
  assert (Hr : issues_only (H := Demo.env)
                 (perform (ShowNotification (H := Demo.env) "42"))
                 Demo.start
                 (mkRequest GET (Some "api/notifications/42") None None)).
  { repeat split; reflexivity. }
  split; [exact Hr |].
  exact (reads_get_writes_carry_body (H := Demo.env)
           (ShowNotification (H := Demo.env) "42") Demo.start
           (mkRequest GET (Some "api/notifications/42") None None) Hr).
Defined.

(** A notification for one user, with subject and message. *)
Lemma posted_content_carries_subject_and_message_witness :
  issues_only (H := Demo.env)
    (send_notification (H := Demo.env) "galaxy" warning "Downtime" "At noon"
       None None (Some ["u1"]) None None)
    Demo.start
    (mkRequest POST None None
       (Some (PyDict
          [("recipients", recipients_of (Some ["u1"]) None None);
           ("notification",
            notification_body (H := Demo.env) "galaxy" warning "message"
              (message_content "Downtime" "At noon") None None)])))
  /\ exists payload,
       Some (PyDict
          [("recipients", recipients_of (Some ["u1"]) None None);
           ("notification",
            notification_body (H := Demo.env) "galaxy" warning "message"
              (message_content "Downtime" "At noon") None None)])
       = Some payload
       /\ path ["notification"; "category"] payload
          = Some (PyStr "message")
       /\ path ["notification"; "content"; "category"] payload
          = Some (PyStr "message")
       /\ path ["notification"; "content"; "subject"] payload
          = Some (PyStr "Downtime")
       /\ path ["notification"; "content"; "message"] payload
          = Some (PyStr "At noon").
Proof.
  assert (Hr : issues_only (H := Demo.env)
    (send_notification (H := Demo.env) "galaxy" warning "Downtime" "At noon"
       None None (Some ["u1"]) None None)
    Demo.start
    (mkRequest POST None None
       (Some (PyDict
          [("recipients", recipients_of (Some ["u1"]) None None);
           ("notification",
            notification_body (H := Demo.env) "galaxy" warning "message"
              (message_content "Downtime" "At noon") None None)])))).
  { repeat split; reflexivity. }
  split; [exact Hr |].
  exact (proj1 (posted_content_carries_subject_and_message (H := Demo.env))
           "galaxy" warning "Downtime" "At noon" None None
           (Some ["u1"]) None None Demo.start _ Hr).
Defined.

(** Two calls of [show_notification("42")], the second after the first. *)
Lemma show_notification_url_tells_id_witness :
  issues_only (H := Demo.env) (show_notification (H := Demo.env) "42")
    Demo.start (mkRequest GET (Some "api/notifications/42") None None)
  /\ issues_only (H := Demo.env) (show_notification (H := Demo.env) "42")
       (snd (show_notification (H := Demo.env) "42" Demo.start))
       (mkRequest GET (Some "api/notifications/42") None None)
  /\ "42" = "42".
Proof.
  assert (H1 : issues_only (H := Demo.env)
                 (show_notification (H := Demo.env) "42") Demo.start
                 (mkRequest GET (Some "api/notifications/42") None None)).
  { repeat split; reflexivity. }
  assert (H2 : issues_only (H := Demo.env)
                 (show_notification (H := Demo.env) "42")
                 (snd (show_notification (H := Demo.env) "42" Demo.start))
                 (mkRequest GET (Some "api/notifications/42") None None)).
  { repeat split; reflexivity. }
  split; [exact H1 |]. split; [exact H2 |].
  exact (show_notification_url_tells_id (H := Demo.env) "42" "42"
           Demo.start
           (snd (show_notification (H := Demo.env) "42" Demo.start))
           (mkRequest GET (Some "api/notifications/42") None None) H1 H2).
Defined.

(** A script of three calls, the second of which is rejected. *)
Example script_stops_at_rejected_call :
  script (H := Demo.env)
    [GetNotificationPreferences (H := Demo.env);
     SendNotification (H := Demo.env) "galaxy" info "s" "m" None None
       (Some []) (Some []) (Some []);
     GetUserNotifications (H := Demo.env) Omitted Omitted] Demo.start
  = (Raise (ValueError "The message has no recipients."),
     @mkWorld Demo.env
       [mkRequest GET (Some "api/notifications/preferences") None None] 1).
Proof. reflexivity. Qed.
